(** * The two [openai_agent.py] scripts

    A shallow embedding of [src/openai_agent.py] and of
    [src/projects/reasoning/bioagents/agents/openai_agent.py].

    Both are straight-line Python modules: load the environment file, read
    one variable, construct a client, issue one chat-completion request,
    print one field of the answer.  The scripts call into two third-party
    packages ([dotenv], [openai]) and, through them, into the network.
    None of that is code of the repository, so it is a parameter of the
    model (a [World]); every theorem quantifies over it.  What the process
    itself owns -- its environment, its standard output, the order of its
    calls, its exit status -- is explicit state threaded through a small
    state-and-exception monad. *)

From Stdlib Require Import ZArith String Ascii List Lia.
From stdpp Require Import base option list strings gmap.

Open Scope string_scope.
Open Scope list_scope.
Open Scope Z_scope.

(** ** Python values the scripts touch *)

(** An exception: its class and its message. *)
Record exn : Type := Raise { exc_type : string; exc_msg : string }.

(** What [l[i]] raises when [i] is out of range. *)
Definition IndexError : exn := Raise "IndexError" "list index out of range".

(** The dict literal [{"role": ..., "content": ...}] is a string-keyed map. *)
Abbreviation dict := (gmap string string).

(** The keyword arguments of [client.chat.completions.create]. *)
Record Request : Type := { model : string; messages : list dict }.

(** The object the completion call returns, as far as the scripts and the
    claims about them look: [completion.choices[0].message.content], plus
    fields they never read.  [content] may be [None]. *)
Record ChatCompletionMessage : Type :=
  { role : string; content : option string; refusal : option string }.

Record Choice : Type :=
  { index : Z; finish_reason : string; message : ChatCompletionMessage }.

Record ChatCompletion : Type :=
  { id : string; created : Z; served_by : string; choices : list Choice }.

(** The client object; it remembers the key it was built with. *)
Record Client : Type := { api_key : option string }.

(** [os.environ]. *)
Abbreviation environ := (gmap string string).

(** ** The world outside the scripts

    - [load_dotenv]: what the [dotenv] package does to [os.environ];
    - [OpenAI]: the client constructor, called with the keyword argument
      [api_key] (it may look at the environment too, and it may raise);
    - [create]: [client.chat.completions.create], the network call; it
      returns a completion or raises.

    The packages are taken to leave standard output and the environment
    alone apart from what [load_dotenv] is there to do. *)
Record World : Type := {
  load_dotenv : environ -> environ;
  OpenAI : option string -> environ -> exn + Client;
  create : Client -> Request -> exn + ChatCompletion
}.

(** ** The process *)

(** The calls a run makes that are visible from outside, in order. *)
Inductive event : Type :=
| EvLoadDotenv
| EvGetenv (name : string)
| EvConstruct (key : option string)
| EvRequest (c : Client) (r : Request)
| EvPrint (line : string).

Record Proc : Type := {
  os_environ : environ;
  sys_stdout : string;
  events : list event
}.

Definition log (e : event) (p : Proc) : Proc :=
  {| os_environ := os_environ p;
     sys_stdout := sys_stdout p;
     events := events p ++ [e] |}.

(** State and exceptions: a step either yields a value or raises, and
    leaves the process state behind in both cases. *)
Definition M (A : Type) : Type := Proc -> (exn + A) * Proc.

Definition ret {A} (a : A) : M A := fun p => (inr a, p).

Definition raise {A} (e : exn) : M A := fun p => (inl e, p).

Definition bind {A B} (m : M A) (k : A -> M B) : M B :=
  fun p =>
    match m p with
    | (inr a, p') => k a p'
    | (inl e, p') => (inl e, p')
    end.

Declare Scope py_scope.
Delimit Scope py_scope with py.
Notation "x <- m ;; k" := (bind m (fun x => k))
  (at level 100, m at next level, right associativity) : py_scope.
Notation "m ;; k" := (bind m (fun _ => k))
  (at level 100, right associativity) : py_scope.

(** ** Primitives *)

Definition newline : string := String "010"%char "".

(** [str(x)] for an optional string. *)
Definition str (v : option string) : string :=
  match v with
  | Some s => s
  | None => "None"
  end.

Section Primitives.
Variable w : World.

(** [load_dotenv()] *)
Definition call_load_dotenv : M unit :=
  fun p =>
    (inr tt,
     log EvLoadDotenv
       {| os_environ := load_dotenv w (os_environ p);
          sys_stdout := sys_stdout p;
          events := events p |}).

(** [os.getenv(name)]: the value, or [None]. *)
Definition getenv (name : string) : M (option string) :=
  fun p => (inr (os_environ p !! name), log (EvGetenv name) p).

(** [OpenAI(api_key=key)] *)
Definition new_OpenAI (key : option string) : M Client :=
  fun p => (OpenAI w key (os_environ p), log (EvConstruct key) p).

(** [client.chat.completions.create(model=..., messages=...)] *)
Definition chat_completions_create
    (client : Client) (mdl : string) (msgs : list dict) : M ChatCompletion :=
  fun p =>
    let r := {| model := mdl; messages := msgs |} in
    (create w client r, log (EvRequest client r) p).
End Primitives.

(** [l[i]]: a negative index counts from the end; out of range raises. *)
Definition getitem {A} (l : list A) (i : Z) : M A :=
  let j := if i <? 0 then i + Z.of_nat (length l) else i in
  if j <? 0 then raise IndexError
  else match l !! Z.to_nat j with
       | Some x => ret x
       | None => raise IndexError
       end.

(** [print(v)]: [str(v)] and a newline on standard output. *)
Definition print (v : option string) : M unit :=
  fun p =>
    let line := str v +:+ newline in
    (inr tt,
     log (EvPrint line)
       {| os_environ := os_environ p;
          sys_stdout := sys_stdout p +:+ line;
          events := events p |}).

(** ** The two scripts *)

Open Scope py_scope.

(** [src/openai_agent.py] *)
Module openai_agent.
Definition main (w : World) : M unit :=
  call_load_dotenv w ;;
  API_KEY <- getenv "API_KEY" ;;
  client <- new_OpenAI w API_KEY ;;
  completion <- chat_completions_create w client
      "gpt-4.1-mini"
      [ {[ "role" := "user";
           "content" := "What is the capital of France?" ]} ] ;;
  choice <- getitem (choices completion) 0 ;;
  print (content (message choice)).
End openai_agent.

(** [src/projects/reasoning/bioagents/agents/openai_agent.py] *)
Module bioagents_openai_agent.
Definition main (w : World) : M unit :=
  call_load_dotenv w ;;
  API_KEY <- getenv "API_KEY" ;;
  client <- new_OpenAI w API_KEY ;;
  completion <- chat_completions_create w client
      "gpt-4.1-mini"
      [ {[ "role" := "user";
           "content" := "Write me a one paragraph essay on World War II." ]} ] ;;
  choice <- getitem (choices completion) 0 ;;
  print (content (message choice)).
End bioagents_openai_agent.

(** ** Running a script as a process *)

Record Outcome : Type := {
  exit_status : Z;
  stdout : string;
  trace : list event;
  uncaught : option exn
}.

Definition start (env : environ) : Proc :=
  {| os_environ := env; sys_stdout := ""; events := [] |}.

(** The interpreter runs the module body; an exception nobody caught ends
    the process with status 1, a body that runs to its end with status 0. *)
Definition run (script : World -> M unit) (w : World) (env : environ) : Outcome :=
  match script w (start env) with
  | (inr _, p) =>
      {| exit_status := 0; stdout := sys_stdout p;
         trace := events p; uncaught := None |}
  | (inl e, p) =>
      {| exit_status := 1; stdout := sys_stdout p;
         trace := events p; uncaught := Some e |}
  end.

(** ** Sample worlds

    Concrete instances of the parameter, used to evaluate the scripts. *)

(** A [dotenv] that adds the entries of a local file to the environment and
    leaves variables that are already set alone. *)
Definition dotenv_file (file : environ) : environ -> environ :=
  fun env => env ∪ file.

(** The mocked client of a test: the constructor takes any key, the
    completion call answers [r] whatever it is asked. *)
Definition mock_world (r : exn + ChatCompletion) : World :=
  {| load_dotenv := fun env => env;
     OpenAI := fun key _ => inr {| api_key := key |};
     create := fun _ _ => r |}.

(** What a client library raises when it finds no key at all, and what a
    provider raises for a key it does not know. *)
Definition missing_key : exn :=
  Raise "OpenAIError" "The api_key client option must be set".

Definition rejected_key : exn :=
  Raise "AuthenticationError" "Incorrect API key provided".

(** A client library that, called without a key, looks the key up under
    [OPENAI_API_KEY] and raises only when that is unset too; its provider
    answers [good] to the key [valid] and rejects every other key. *)
Definition fallback_world (file : environ) (valid : string) (good : ChatCompletion) : World :=
  {| load_dotenv := dotenv_file file;
     OpenAI := fun key env =>
       match key with
       | Some k => inr {| api_key := Some k |}
       | None =>
           match env !! "OPENAI_API_KEY" with
           | Some k => inr {| api_key := Some k |}
           | None => inl missing_key
           end
       end;
     create := fun c _ =>
       if decide (api_key c = Some valid) then inr good else inl rejected_key |}.

Definition answer (texts : list (option string)) : ChatCompletion :=
  {| id := "chatcmpl-1"; created := 1700000000; served_by := "gpt-4.1-mini";
     choices :=
       imap (fun i t =>
               {| index := Z.of_nat i; finish_reason := "stop";
                  message := {| role := "assistant"; content := t; refusal := None |} |})
            texts |}.

(** ** Observations on a run *)

(** The completion calls a trace holds, with the client they went through. *)
Definition calls (t : list event) : list (Client * Request) :=
  omap (fun e => match e with EvRequest c r => Some (c, r) | _ => None end) t.

(** The payloads that left the process. *)
Definition requests (t : list event) : list Request := snd <$> calls t.

(** The keys the client constructor was invoked with. *)
Definition constructions (t : list event) : list (option string) :=
  omap (fun e => match e with EvConstruct k => Some k | _ => None end) t.


(** What the world answered to the completion calls of a trace. *)
Definition completions (w : World) (t : list event) : list (exn + ChatCompletion) :=
  (fun cr => create w cr.1 cr.2) <$> calls t.


(** A trace with the text of the prompt blanked out of its requests. *)
Definition redact (e : event) : event :=
  match e with
  | EvRequest c r =>
      EvRequest c {| model := model r; messages := delete "content" <$> messages r |}
  | _ => e
  end.





(** ** The scripts as one family *)

Inductive Script : Type := Root | Bioagents.

Definition main_of (s : Script) : World -> M unit :=
  match s with
  | Root => openai_agent.main
  | Bioagents => bioagents_openai_agent.main
  end.

(** The string literal under ["content"] in each file. *)
Definition prompt_of (s : Script) : string :=
  match s with
  | Root => "What is the capital of France?"
  | Bioagents => "Write me a one paragraph essay on World War II."
  end.

(** The script with the prompt taken as an argument. *)
Definition agent (prompt : string) (w : World) : M unit :=
  call_load_dotenv w ;;
  API_KEY <- getenv "API_KEY" ;;
  client <- new_OpenAI w API_KEY ;;
  completion <- chat_completions_create w client
      "gpt-4.1-mini" [ {[ "role" := "user"; "content" := prompt ]} ] ;;
  choice <- getitem (choices completion) 0 ;;
  print (content (message choice)).

Definition payload (prompt : string) : Request :=
  {| model := "gpt-4.1-mini";
     messages := [ {[ "role" := "user"; "content" := prompt ]} ] |}.

(** What the claim about the request asks of a payload. *)
Definition one_user_message (prompt : string) (r : Request) : Prop :=
  model r = "gpt-4.1-mini" /\
  exists m : dict,
    messages r = [m] /\ m !! "role" = Some "user" /\ m !! "content" = Some prompt.

(** ** Sample runs *)

Definition live_key : string := "sk-live".

Definition paris : ChatCompletion := answer [Some "Paris."].


(** The falling-back library in front of a provider that knows [live_key],
    with a given local environment file. *)
Definition provider (file : environ) : World := fallback_world file live_key paris.

(** A local environment file that sets the library's own variable only. *)
Definition dotfile : environ := {[ "OPENAI_API_KEY" := live_key ]}.

(** ** The claims' words *)

(** The run failed and no request left the process. *)
Definition fails_before_any_request (o : Outcome) : Prop :=
  requests (trace o) = [] /\ is_Some (uncaught o) /\ exit_status o <> 0.



(** ** Further observations *)


(** A process state with earlier output and earlier events in front. *)
Definition prepend (out : string) (evs : list event) (q : Proc) : Proc :=
  {| os_environ := os_environ q;
     sys_stdout := out +:+ sys_stdout q;
     events := evs ++ events q |}.

(** A step that leaves earlier output and events alone and does the same
    whether or not there are any. *)
Definition framed {A} (m : M A) : Prop :=
  forall out evs q, m (prepend out evs q) = ((m q).1, prepend out evs (m q).2).

(** * Properties *)

(** ** The monad *)

Lemma bind_ret_l {A B} (a : A) (k : A -> M B) p : bind (ret a) k p = k a p.
Proof. reflexivity. Qed.

Lemma bind_raise {A B} (e : exn) (k : A -> M B) p :
  bind (raise e) k p = raise e p.
Proof. reflexivity. Qed.

Lemma bind_assoc {A B C} (m : M A) (k : A -> M B) (h : B -> M C) p :
  bind (bind m k) h p = bind m (fun a => bind (k a) h) p.
Proof. unfold bind. destruct (m p) as [[e|a] p']; reflexivity. Qed.

(** ** Indexing *)

Lemma getitem_0 {A} (l : list A) p :
  getitem l 0 p = match l with [] => raise IndexError p | x :: _ => ret x p end.
Proof. destruct l; reflexivity. Qed.

Lemma getitem_in_range {A} (l : list A) (i : Z) x p :
  0 <= i -> l !! Z.to_nat i = Some x -> getitem l i p = ret x p.
Proof.
  intros Hi Hx. unfold getitem.
  destruct (Z.ltb_spec i 0) as [Hneg|_]; [lia|].
  destruct (Z.ltb_spec i 0) as [Hneg|_]; [lia|].
  now rewrite Hx.
Qed.

Lemma getitem_empty {A} (i : Z) p : getitem (@nil A) i p = raise IndexError p.
Proof.
  unfold getitem. cbn [length]. rewrite Z.add_0_r.
  destruct (i <? 0) eqn:Hi; [now rewrite Hi|].
  rewrite Hi. reflexivity.
Qed.

(** ** Each script is the shared body at its own prompt *)

Lemma main_of_agent (s : Script) : main_of s = agent (prompt_of s).
Proof. destruct s; reflexivity. Qed.

(** ** What a run does, case by case *)

Section Run.
Variables (prompt : string) (w : World) (env : environ).

Let env' : environ := load_dotenv w env.
Let key : option string := env' !! "API_KEY".
Let upto_construct : list event :=
  [EvLoadDotenv; EvGetenv "API_KEY"; EvConstruct key].

Lemma run_agent :
  run (agent prompt) w env =
  match OpenAI w key env' with
  | inl e =>
      {| exit_status := 1; stdout := ""; trace := upto_construct;
         uncaught := Some e |}
  | inr c =>
      let t := upto_construct ++ [EvRequest c (payload prompt)] in
      match create w c (payload prompt) with
      | inl e =>
          {| exit_status := 1; stdout := ""; trace := t; uncaught := Some e |}
      | inr resp =>
          match choices resp with
          | [] =>
              {| exit_status := 1; stdout := ""; trace := t;
                 uncaught := Some IndexError |}
          | ch :: _ =>
              let line := str (content (message ch)) +:+ newline in
              {| exit_status := 0; stdout := line;
                 trace := t ++ [EvPrint line]; uncaught := None |}
          end
      end
  end.
Proof.
  subst upto_construct key env'.
  cbv [run agent bind start call_load_dotenv getenv new_OpenAI
       chat_completions_create log payload
       os_environ sys_stdout events].
  destruct (OpenAI w _ _) as [e|c]; [reflexivity|].
  destruct (create w c _) as [e|resp]; [reflexivity|].
  rewrite getitem_0.
  destruct (choices resp) as [|ch rest]; reflexivity.
Qed.
End Run.

Section Scripts.
Variables (s : Script) (w : World) (env : environ).

Let env' : environ := load_dotenv w env.
Let key : option string := env' !! "API_KEY".
Let upto_construct : list event :=
  [EvLoadDotenv; EvGetenv "API_KEY"; EvConstruct key].

Lemma run_main_of :
  run (main_of s) w env =
  match OpenAI w key env' with
  | inl e =>
      {| exit_status := 1; stdout := ""; trace := upto_construct;
         uncaught := Some e |}
  | inr c =>
      let t := upto_construct ++ [EvRequest c (payload (prompt_of s))] in
      match create w c (payload (prompt_of s)) with
      | inl e =>
          {| exit_status := 1; stdout := ""; trace := t; uncaught := Some e |}
      | inr resp =>
          match choices resp with
          | [] =>
              {| exit_status := 1; stdout := ""; trace := t;
                 uncaught := Some IndexError |}
          | ch :: _ =>
              let line := str (content (message ch)) +:+ newline in
              {| exit_status := 0; stdout := line;
                 trace := t ++ [EvPrint line]; uncaught := None |}
          end
      end
  end.
Proof. rewrite main_of_agent. apply run_agent. Qed.

(** The calls of a run: none when the constructor raised, else the one
    request through the client it returned. *)
Lemma calls_run :
  calls (trace (run (main_of s) w env)) =
  match OpenAI w key env' with
  | inl _ => []
  | inr c => [(c, payload (prompt_of s))]
  end.
Proof.
  rewrite run_main_of.
  destruct (OpenAI w key env') as [e|c]; [reflexivity|].
  cbv zeta.
  destruct (create w c _) as [e|resp]; [reflexivity|].
  destruct (choices resp); reflexivity.
Qed.

Lemma completions_run :
  completions w (trace (run (main_of s) w env)) =
  match OpenAI w key env' with
  | inl _ => []
  | inr c => [create w c (payload (prompt_of s))]
  end.
Proof.
  unfold completions. rewrite calls_run.
  destruct (OpenAI w key env'); reflexivity.
Qed.


Lemma constructions_run :
  constructions (trace (run (main_of s) w env)) = [key].
Proof.
  rewrite run_main_of.
  destruct (OpenAI w key env') as [e|c]; [reflexivity|].
  cbv zeta.
  destruct (create w c _) as [e|resp]; [reflexivity|].
  destruct (choices resp); reflexivity.
Qed.
End Scripts.

(** The payload built from a prompt is the one the claim describes. *)
Lemma payload_one_user_message (prompt : string) :
  one_user_message prompt (payload prompt).
Proof.
  split; [reflexivity|].
  exists {[ "role" := "user"; "content" := prompt ]}.
  split; [reflexivity|]. split.
  - apply lookup_insert_eq.
  - rewrite lookup_insert_ne by discriminate. apply lookup_singleton_eq.
Qed.

(** ** Traces that take the steps in order *)





(** ** Runs whose completion call came back *)

Section Returned.
Variables (s : Script) (w : World) (env : environ).

Let o : Outcome := run (main_of s) w env.
Let key : option string := load_dotenv w env !! "API_KEY".


End Returned.

(** * The claims *)

(** ** Missing credential *)

(** C1, as stated, fails.  The local environment file sets
    [OPENAI_API_KEY] and nothing sets [API_KEY]; the script hands [None]
    to the constructor, the library finds its own variable, and the
    request goes out: the run prints the answer and exits with status 0. *)
Lemma absent_key_request_still_issued :
  load_dotenv (provider dotfile) ∅ !! "API_KEY" = None /\
  ~ fails_before_any_request (run openai_agent.main (provider dotfile) ∅) /\
  constructions (trace (run openai_agent.main (provider dotfile) ∅)) = [None] /\
  length (requests (trace (run openai_agent.main (provider dotfile) ∅))) = 1%nat /\
  uncaught (run openai_agent.main (provider dotfile) ∅) = None /\
  exit_status (run openai_agent.main (provider dotfile) ∅) = 0.
Proof.
  split; [vm_compute; reflexivity|].
  split; [|vm_compute; repeat split].
  intros [Hreq _]. vm_compute in Hreq. discriminate Hreq.
Qed.

(** C1, amended: when [API_KEY] is absent after the environment file is
    loaded, the constructor is invoked with the absent value; if it raises,
    the process fails before any network call: no chat-completion request
    is issued, nothing is printed, and the constructor's error is the
    uncaught one.  The scripts have no check of their own. *)
Theorem absent_key_constructor_raises (s : Script) (w : World) (env : environ) (e : exn) :
  load_dotenv w env !! "API_KEY" = None ->
  OpenAI w None (load_dotenv w env) = inl e ->
  constructions (trace (run (main_of s) w env)) = [None] /\
  fails_before_any_request (run (main_of s) w env) /\
  uncaught (run (main_of s) w env) = Some e /\
  stdout (run (main_of s) w env) = "".
Proof.
  intros Hkey Hctor.
  rewrite constructions_run, Hkey. split; [reflexivity|].
  rewrite run_main_of, Hkey, Hctor. cbn.
  repeat split; [eexists; reflexivity | discriminate].
Qed.

Lemma absent_key_constructor_raises_here :
  constructions (trace (run (main_of Bioagents) (provider ∅) ∅)) = [None] /\
  fails_before_any_request (run (main_of Bioagents) (provider ∅) ∅) /\
  uncaught (run (main_of Bioagents) (provider ∅) ∅) = Some missing_key /\
  stdout (run (main_of Bioagents) (provider ∅) ∅) = "".
Proof.
  apply (absent_key_constructor_raises Bioagents (provider ∅) ∅ missing_key).
  - vm_compute. reflexivity.
  - vm_compute. reflexivity.
Defined.

(** ** The request *)

(** C2: whatever leaves the process as a chat-completion request has the
    model ["gpt-4.1-mini"] and exactly one message, with role ["user"] and
    the prompt literal of its file as content; and one such request leaves
    whenever the client was constructed. *)
Theorem request_payload (w : World) (env : environ) :
  Forall (one_user_message "What is the capital of France?")
         (requests (trace (run openai_agent.main w env))) /\
  Forall (one_user_message "Write me a one paragraph essay on World War II.")
         (requests (trace (run bioagents_openai_agent.main w env))) /\
  forall s : Script,
    length (requests (trace (run (main_of s) w env))) =
    match OpenAI w (load_dotenv w env !! "API_KEY") (load_dotenv w env) with
    | inl _ => 0%nat
    | inr _ => 1%nat
    end.
Proof.
  assert (Hreq : forall s, requests (trace (run (main_of s) w env)) =
      match OpenAI w (load_dotenv w env !! "API_KEY") (load_dotenv w env) with
      | inl _ => []
      | inr _ => [payload (prompt_of s)]
      end).
  { intros s. unfold requests. rewrite calls_run.
    destruct (OpenAI w _ _); reflexivity. }
  split; [|split].
  - change openai_agent.main with (main_of Root). rewrite Hreq.
    destruct (OpenAI w _ _); constructor;
      [apply (payload_one_user_message (prompt_of Root)) | constructor].
  - change bioagents_openai_agent.main with (main_of Bioagents). rewrite Hreq.
    destruct (OpenAI w _ _); constructor;
      [apply (payload_one_user_message (prompt_of Bioagents)) | constructor].
  - intros s. rewrite Hreq. destruct (OpenAI w _ _); reflexivity.
Qed.

(** ** The answer *)










(** ** The two files *)

Lemma redact_payload (c : Client) (prompt : string) :
  redact (EvRequest c (payload prompt)) =
  EvRequest c {| model := "gpt-4.1-mini"; messages := [ {[ "role" := "user" ]} ] |}.
Proof.
  unfold redact, payload. cbn [model messages fmap list_fmap].
  rewrite delete_insert_ne by discriminate.
  rewrite delete_singleton_eq, insert_empty. reflexivity.
Qed.

(** C7: each file is the same body at its own prompt literal, and the
    literals differ.  Run in the same world and environment, and given
    the same result by the completion call, the two processes write the
    same standard output, end with the same status and the same uncaught
    error, and make the same calls in the same order: the traces are
    equal once the content of the request's message is blanked out. *)
Theorem scripts_differ_in_prompt_only (w : World) (env : environ) :
  completions w (trace (run openai_agent.main w env)) =
  completions w (trace (run bioagents_openai_agent.main w env)) ->
  (openai_agent.main = agent "What is the capital of France?" /\
   bioagents_openai_agent.main =
     agent "Write me a one paragraph essay on World War II." /\
   prompt_of Root <> prompt_of Bioagents) /\
  redact <$> trace (run openai_agent.main w env) =
  redact <$> trace (run bioagents_openai_agent.main w env) /\
  stdout (run openai_agent.main w env) =
  stdout (run bioagents_openai_agent.main w env) /\
  exit_status (run openai_agent.main w env) =
  exit_status (run bioagents_openai_agent.main w env) /\
  uncaught (run openai_agent.main w env) =
  uncaught (run bioagents_openai_agent.main w env).
Proof.
  intros Hsame.
  split; [repeat split; discriminate|].
  change openai_agent.main with (main_of Root) in *.
  change bioagents_openai_agent.main with (main_of Bioagents) in *.
  rewrite !completions_run in Hsame. rewrite !run_main_of.
  destruct (OpenAI w _ _) as [e|c]; [repeat split|].
  assert (Hcreate : create w c (payload (prompt_of Root)) =
                    create w c (payload (prompt_of Bioagents)))
    by (injection Hsame as Hsame; exact Hsame).
  cbv zeta. rewrite Hcreate.
  destruct (create w c (payload (prompt_of Bioagents))) as [e|resp].
  - cbn [trace stdout exit_status uncaught].
    rewrite !fmap_app. cbn [fmap list_fmap]. rewrite !redact_payload.
    repeat split.
  - destruct (choices resp) as [|ch rest];
      cbn [trace stdout exit_status uncaught];
      rewrite !fmap_app; cbn [fmap list_fmap]; rewrite !redact_payload;
      repeat split.
Qed.

Lemma scripts_differ_in_prompt_only_here :
  redact <$> trace (run openai_agent.main (mock_world (inr paris)) dotfile) =
  redact <$> trace (run bioagents_openai_agent.main (mock_world (inr paris)) dotfile) /\
  stdout (run openai_agent.main (mock_world (inr paris)) dotfile) =
  stdout (run bioagents_openai_agent.main (mock_world (inr paris)) dotfile).
Proof.
  destruct (scripts_differ_in_prompt_only (mock_world (inr paris)) dotfile)
    as (_ & Htrace & Hout & _).
  - vm_compute. reflexivity.
  - split; [exact Htrace | exact Hout].
Defined.

(** ** Order and number of the steps *)



(** ** The unguarded index *)



(** ** What the output depends on *)



(** * Further properties of the scripts *)

(** ** Strings *)

Lemma append_assoc3 (a b c : string) : (a +:+ b) +:+ c = a +:+ (b +:+ c).
Proof.
  induction a as [|x a IH]; [reflexivity|].
  change (String x ((a +:+ b) +:+ c) = String x (a +:+ (b +:+ c))).
  now rewrite IH.
Qed.

Lemma append_empty_right (a : string) : a +:+ "" = a.
Proof.
  induction a as [|x a IH]; [reflexivity|].
  change (String x (a +:+ "") = String x a). now rewrite IH.
Qed.


(** ** Steps leave earlier output alone *)

Lemma log_prepend (e : event) out evs q :
  log e (prepend out evs q) = prepend out evs (log e q).
Proof. unfold log, prepend. cbn. now rewrite app_assoc. Qed.

Lemma framed_ret {A} (a : A) : framed (ret a).
Proof. intros out evs q. reflexivity. Qed.

Lemma framed_raise {A} (e : exn) : framed (@raise A e).
Proof. intros out evs q. reflexivity. Qed.

Lemma framed_bind {A B} (m : M A) (k : A -> M B) :
  framed m -> (forall a, framed (k a)) -> framed (bind m k).
Proof.
  intros Hm Hk out evs q. unfold bind. rewrite Hm.
  destruct (m q) as [[e|a] q']; cbn; [reflexivity | apply Hk].
Qed.

Lemma framed_call_load_dotenv (w : World) : framed (call_load_dotenv w).
Proof.
  intros out evs q. unfold call_load_dotenv. cbn [fst snd].
  f_equal. unfold log, prepend. cbn. now rewrite app_assoc.
Qed.

Lemma framed_getenv (name : string) : framed (getenv name).
Proof.
  intros out evs q. unfold getenv. cbn [fst snd]. now rewrite log_prepend.
Qed.

Lemma framed_new_OpenAI (w : World) (key : option string) : framed (new_OpenAI w key).
Proof.
  intros out evs q. unfold new_OpenAI. cbn [fst snd]. now rewrite log_prepend.
Qed.

Lemma framed_chat_completions_create (w : World) c mdl msgs :
  framed (chat_completions_create w c mdl msgs).
Proof.
  intros out evs q. unfold chat_completions_create. cbn [fst snd].
  now rewrite log_prepend.
Qed.

Lemma framed_getitem {A} (l : list A) (i : Z) : framed (getitem l i).
Proof.
  unfold getitem. destruct (_ <? 0); [apply framed_raise|].
  destruct (l !! _); [apply framed_ret | apply framed_raise].
Qed.

Lemma framed_print (v : option string) : framed (print v).
Proof.
  intros out evs q. unfold print. cbn [fst snd].
  f_equal. unfold log, prepend. cbn.
  now rewrite app_assoc, append_assoc3.
Qed.

Lemma framed_agent (prompt : string) (w : World) : framed (agent prompt w).
Proof.
  unfold agent.
  apply framed_bind; [apply framed_call_load_dotenv | intros _].
  apply framed_bind; [apply framed_getenv | intros key].
  apply framed_bind; [apply framed_new_OpenAI | intros c].
  apply framed_bind; [apply framed_chat_completions_create | intros completion].
  apply framed_bind; [apply framed_getitem | intros choice].
  apply framed_print.
Qed.

Lemma prepend_start (p : Proc) :
  prepend (sys_stdout p) (events p) (start (os_environ p)) = p.
Proof.
  destruct p as [env out evs]. unfold prepend, start. cbn.
  now rewrite append_empty_right, app_nil_r.
Qed.

Lemma agent_environ (prompt : string) (w : World) (p : Proc) :
  os_environ (agent prompt w p).2 = load_dotenv w (os_environ p).
Proof.
  cbv [agent bind call_load_dotenv getenv new_OpenAI chat_completions_create
       log os_environ sys_stdout events].
  destruct p as [env out evs].
  destruct (OpenAI w _ _) as [e|c]; [reflexivity|].
  destruct (create w c _) as [e|resp]; [reflexivity|].
  rewrite getitem_0.
  destruct (choices resp) as [|ch rest]; reflexivity.
Qed.


(** ** Where the key comes from and where it goes *)


(** ** Failure and success *)




(** ** A response without text *)



(** ** Earlier output *)

(** X4: run in a process that has already written output and made calls,
    a script leaves both as they are and appends exactly what it writes
    and does when run from a fresh start in the same environment, with the
    same result; its only change to the environment is the one
    [load_dotenv] makes. *)
Theorem body_appends (s : Script) (w : World) (p : Proc) :
  (main_of s w p).1 = (main_of s w (start (os_environ p))).1 /\
  sys_stdout (main_of s w p).2 =
    sys_stdout p +:+ stdout (run (main_of s) w (os_environ p)) /\
  events (main_of s w p).2 =
    events p ++ trace (run (main_of s) w (os_environ p)) /\
  os_environ (main_of s w p).2 = load_dotenv w (os_environ p).
Proof.
  rewrite main_of_agent.
  pose proof (framed_agent (prompt_of s) w
                (sys_stdout p) (events p) (start (os_environ p))) as Hframe.
  rewrite prepend_start in Hframe.
  split; [now rewrite Hframe|].
  rewrite agent_environ.
  rewrite Hframe. unfold run.
  destruct (agent (prompt_of s) w (start (os_environ p))) as [[e|u] q];
    cbn; repeat split.
Qed.

(** ** The two scripts, whatever the provider answers *)

(** X6: in the same world and environment the two scripts read the same
    variable and invoke the constructor with the same key, so either both
    issue a request or neither does; and the two requests differ in the
    content of their message only, whatever the completion call then
    answers to each. *)
Theorem scripts_agree_up_to_the_request (w : World) (env : environ) :
  take 3 (trace (run openai_agent.main w env)) =
  take 3 (trace (run bioagents_openai_agent.main w env)) /\
  redact <$> take 4 (trace (run openai_agent.main w env)) =
  redact <$> take 4 (trace (run bioagents_openai_agent.main w env)) /\
  length (requests (trace (run openai_agent.main w env))) =
  length (requests (trace (run bioagents_openai_agent.main w env))).
Proof.
  change openai_agent.main with (main_of Root).
  change bioagents_openai_agent.main with (main_of Bioagents).
  unfold requests. rewrite !length_fmap, !calls_run, !run_main_of.
  destruct (OpenAI w _ _) as [e|c]; [repeat split|].
  cbv zeta.
  assert (Hredact : redact (EvRequest c (payload (prompt_of Root))) =
                    redact (EvRequest c (payload (prompt_of Bioagents))))
    by now rewrite !redact_payload.
  destruct (create w c (payload (prompt_of Root))) as [e1|resp1],
           (create w c (payload (prompt_of Bioagents))) as [e2|resp2];
    try destruct (choices resp1); try destruct (choices resp2);
    cbn [trace app take fmap list_fmap]; rewrite Hredact; repeat split.
Qed.
